(** * Clockwork: the sinfo node parser ([slurm_state/sinfo_parser.py])

    A shallow embedding of [node_parser] and of the table [NODE_FIELD_MAP]
    that drives it, with the properties of the normalization pipeline
    stated over them.

    Python dictionaries are finite maps ([gmap]) where only lookups and
    stores are made, and association lists in insertion order where the
    code iterates over them ([src_node.items()]).  The generator returned
    by [node_parser] is a state machine advanced by [next]. *)

From Stdlib Require Import ZArith.
From Stdlib Require SpecFloat.
From stdpp Require Import gmap strings list fin_maps.

Local Open Scope string_scope.
Local Open Scope list_scope.
Set Warnings "-register-all".

(** ** Decoded JSON values *)

Module Json.

(** What [json.load] returns: [None], [bool], [int], [float], [str], [list]
    and [dict].  A [dict] keeps its items in insertion order, which is the
    order [items()] walks them in; its keys are pairwise distinct, which
    the statements below ask of a record as [NoDup] of its keys.  The
    parser never looks inside a field value, it only moves it. *)
Inductive json : Type :=
| JNull
| JBool (b : bool)
| JInt (z : Z)
| JFloat (x : SpecFloat.spec_float)
| JStr (s : string)
| JList (l : list json)
| JDict (d : list (string * json)).

End Json.
Export Json.

(** ** Exceptions and results *)

(** The exceptions the parser can raise once the report is decoded.
    [ValueError] carries its message; the interpreter's own errors carry
    what identifies them. *)
Inductive exn : Type :=
| KeyError (key : string)
| TypeError
| AttributeError
| ValueError (msg : string).

Inductive result (A : Type) : Type :=
| Return (a : A)
| Raised (e : exn).
Arguments Return {A} a.
Arguments Raised {A} e.

(** [o[key]] for a [str] key: only a dict can be indexed by a string. *)
Definition getitem (o : json) (key : string) : result json :=
  match o with
  | JDict d =>
      match (list_to_map d : gmap string json) !! key with
      | Some v => Return v
      | None => Raised (KeyError key)
      end
  | _ => Raised TypeError
  end.

(** The elements [for x in o] walks through: the elements of a list, the
    keys of a dict, the characters of a string; anything else is not
    iterable. *)
Definition iter (o : json) : result (list json) :=
  match o with
  | JList l => Return l
  | JDict d => Return ((λ kv, JStr kv.1) <$> d)
  | JStr s => Return ((λ c, JStr (String c "")) <$> String.list_ascii_of_string s)
  | _ => Raised TypeError
  end.

(** [o.items()]: only a dict has the method. *)
Definition items (o : json) : result (list (string * json)) :=
  match o with
  | JDict d => Return d
  | _ => Raised AttributeError
  end.

(** ** Translators ([slurm_state.helpers.parser_helper]) *)

Module parser_helper.

(** Modelled from the spec: the module [slurm_state.helpers.parser_helper],
    from which [sinfo_parser] imports [copy], [ignore] and [rename], is not
    among the sources.  The three behaviours are the ones the data model
    gives: the Python closures are represented by their tag and
    [rename(new_key)] keeps the key it was built with. *)
Inductive translator : Type :=
| copy
| ignore
| rename (new_key : string).

(** Modelled from the spec: the call [translator(k, v, res)].  [copy]
    stores the value under its original key unchanged, [rename(new_key)]
    stores it under [new_key] unchanged, [ignore] discards it. *)
Definition call (t : translator) (k : string) (v : json)
    (res : gmap string json) : gmap string json :=
  match t with
  | copy => <[k := v]> res
  | ignore => res
  | rename new_key => <[new_key := v]> res
  end.

End parser_helper.
Export parser_helper.

(** ** The field table *)

(** The entries of the dict literal, in the order they are written. *)
Definition NODE_FIELD_MAP_items : list (string * translator) :=
  [ ("architecture", rename "arch");
    ("burstbuffer_network_address", ignore);
    ("boards", ignore);
    ("boot_time", ignore);
    ("comment", copy);
    ("cores", copy);
    ("cpu_binding", ignore);
    ("cpu_load", ignore);
    ("cpus", copy);
    ("extra", ignore);
    ("free_memory", ignore);
    ("last_busy", copy);
    ("features", copy);
    ("active_features", ignore);
    ("gres", copy);
    ("gres_drained", ignore);
    ("gres_used", ignore);
    ("mcs_label", ignore);
    ("name", copy);
    ("next_state_after_reboot", ignore);
    ("address", rename "addr");
    ("hostname", ignore);
    ("state", copy);
    ("state_flags", ignore);
    ("next_state_after_reboot_flags", ignore);
    ("operating_system", ignore);
    ("owner", ignore);
    ("partitions", ignore);
    ("port", ignore);
    ("real_memory", rename "memory");
    ("reason", copy);
    ("reason_changed_at", copy);
    ("reason_set_by_user", ignore);
    ("slurmd_start_time", ignore);
    ("sockets", ignore);
    ("threads", ignore);
    ("temporary_disk", ignore);
    ("weight", ignore);
    ("tres", copy);
    ("slurmd_version", ignore);
    ("alloc_memory", ignore);
    ("alloc_cpus", ignore);
    ("idle_cpus", ignore);
    ("tres_used", copy);
    ("tres_weighted", ignore) ].

(** The dict the literal builds.  Its keys are pairwise distinct
    ([NODE_FIELD_MAP_NoDup]), so no entry overrides another. *)
Definition NODE_FIELD_MAP : gmap string translator :=
  list_to_map NODE_FIELD_MAP_items.

(** ** The node parser *)

(** The text of the [ValueError] raised on a field without a handler. *)
Definition unknown_field (k : string) : exn :=
  ValueError ("Unknown field in sinfo node output: " +:+ k).

(** The inner loop, [for k, v in src_node.items(): ...], threading the
    dictionary [res_node] it fills. *)
Fixpoint translate_fields (kvs : list (string * json))
    (res_node : gmap string json) : result (gmap string json) :=
  match kvs with
  | [] => Return res_node
  | (k, v) :: kvs' =>
      match NODE_FIELD_MAP !! k with
      | None => Raised (unknown_field k)
      | Some translator => translate_fields kvs' (call translator k v res_node)
      end
  end.

(** One turn of the outer loop's body, up to its [yield]: a fresh
    [res_node], filled from the fields of [src_node]. *)
Definition normalize (src_node : json) : result (gmap string json) :=
  match items src_node with
  | Raised e => Raised e
  | Return kvs => translate_fields kvs ∅
  end.

(** A generator object is either not started yet (it holds its argument,
    the decoded report), suspended at the [yield] with the nodes still to
    visit, or finished. *)
Inductive generator : Type :=
| Created (sinfo_data : json)
| Suspended (src_nodes : list json)
| Closed.

(** What one call of [next] gives its caller. *)
Inductive signal : Type :=
| Yield (res_node : gmap string json)
| StopIteration
| Raise (e : exn).

(** Calling [node_parser] runs none of its body.  Its argument stands for
    the content of the file [f] as [json.load] decodes it. *)
Definition node_parser (sinfo_data : json) : generator := Created sinfo_data.

(** Run the [for src_node in src_nodes] loop up to the next [yield], the end
    of the list or an exception; an exception finishes the generator. *)
Definition resume (src_nodes : list json) : signal * generator :=
  match src_nodes with
  | [] => (StopIteration, Closed)
  | src_node :: rest =>
      match normalize src_node with
      | Raised e => (Raise e, Closed)
      | Return res_node => (Yield res_node, Suspended rest)
      end
  end.

Definition next (g : generator) : signal * generator :=
  match g with
  | Created sinfo_data =>
      match getitem sinfo_data "nodes" with
      | Raised e => (Raise e, Closed)
      | Return src_nodes =>
          match iter src_nodes with
          | Raised e => (Raise e, Closed)
          | Return l => resume l
          end
      end
  | Suspended src_nodes => resume src_nodes
  | Closed => (StopIteration, Closed)
  end.

(** A consumer calling [next] [n] times, with what each call gave. *)
Fixpoint pull (n : nat) (g : generator) : list signal :=
  match n with
  | O => []
  | S n' => let '(s, g') := next g in s :: pull n' g'
  end.

(** The report [{"nodes": [...]}]. *)
Definition report (nodes : list json) : json := JDict [("nodes", JList nodes)].

(** ** Facts about the field table *)

(** The output key a translator writes for the field [k], if any. *)
Definition target (t : translator) (k : string) : option string :=
  match t with
  | copy => Some k
  | ignore => None
  | rename new_key => Some new_key
  end.

(** The source field an output key can only come from. *)
Definition origin (o : string) : string :=
  if decide (o = "arch") then "architecture"
  else if decide (o = "addr") then "address"
  else if decide (o = "memory") then "real_memory"
  else o.

(** A field of a raw record is known when the table has a handler for it. *)
Definition known (kv : string * json) : Prop :=
  is_Some (NODE_FIELD_MAP !! kv.1).

(** The stores a record's fields make, in order (fields without a handler
    make none). *)
Definition writes (kvs : list (string * json)) : list (string * json) :=
  omap (λ kv, t ← NODE_FIELD_MAP !! kv.1; o ← target t kv.1; Some (o, kv.2)) kvs.

Global Instance known_dec kv : Decision (known kv).
Proof. unfold known. apply _. Defined.

(** A raw record as a node of the report. *)
Abbreviation records recs := (JDict <$> recs).

(** The keys the handlers of a record's fields produce: for each field,
    the keys its handler stores when called on an empty record. *)
Definition produced_keys (src_node : list (string * json)) : gset string :=
  ⋃ ((λ kv, match NODE_FIELD_MAP !! kv.1 with
            | Some t => dom (call t kv.1 kv.2 ∅)
            | None => ∅
            end) <$> src_node).

(** Values that are neither a container nor a string. *)
Definition scalar (v : json) : Prop :=
  match v with
  | JNull | JBool _ | JInt _ | JFloat _ => True
  | _ => False
  end.

(** The decoded reports the parser rejects before it looks at a node, with
    the exception each one meets: no ["nodes"] key, a ["nodes"] value that
    cannot be iterated, or a top level that is not an object. *)
Inductive rejected : json → exn → Prop :=
| rejected_no_key d :
    "nodes" ∉ d.*1 → rejected (JDict d) (KeyError "nodes")
| rejected_not_iterable d v :
    NoDup d.*1 → ("nodes", v) ∈ d → scalar v → rejected (JDict d) TypeError
| rejected_not_object j :
    (∀ d, j ≠ JDict d) → rejected j TypeError.

(** The nodes the outer loop visits: [sinfo_data["nodes"]], iterated. *)
Definition src_nodes_of (sinfo_data : json) : result (list json) :=
  match getitem sinfo_data "nodes" with
  | Raised e => Raised e
  | Return src_nodes => iter src_nodes
  end.

(** The keys a record of the node parser can have: the names kept by
    [copy] and the names given by [rename]. *)
Definition canonical_keys : gset string :=
  list_to_set
    [ "arch"; "comment"; "cores"; "cpus"; "last_busy"; "features"; "gres";
      "name"; "addr"; "state"; "memory"; "reason"; "reason_changed_at";
      "tres"; "tres_used" ].

Global Instance translator_eq_dec : EqDecision translator.
Proof. solve_decision. Defined.

Lemma call_target t k v res :
  call t k v res = from_option (λ o, <[o := v]> res) res (target t k).
Proof. by destruct t. Qed.

Lemma NODE_FIELD_MAP_NoDup : NoDup NODE_FIELD_MAP_items.*1.
Proof. apply (bool_decide_unpack _). vm_compute. exact I. Qed.

Lemma NODE_FIELD_MAP_lookup k t :
  NODE_FIELD_MAP !! k = Some t ↔ (k, t) ∈ NODE_FIELD_MAP_items.
Proof.
  unfold NODE_FIELD_MAP. symmetry.
  apply elem_of_list_to_map, NODE_FIELD_MAP_NoDup.
Qed.

(** From here on the table is looked at through the lemmas, not unfolded
    by [simpl]. *)
Global Opaque NODE_FIELD_MAP.

(** Every entry of the table, by a check that computes. *)
Lemma NODE_FIELD_MAP_forall (check : string → translator → bool) :
  forallb (λ kt, check kt.1 kt.2) NODE_FIELD_MAP_items = true →
  ∀ k t, NODE_FIELD_MAP !! k = Some t → check k t = true.
Proof.
  intros Hall k t Hkt%NODE_FIELD_MAP_lookup.
  rewrite forallb_forall in Hall.
  apply (Hall (k, t)). by apply list_elem_of_In.
Qed.

(** [table_fact H check]: turn [H : NODE_FIELD_MAP !! k = Some t] into
    [check k t = true], after running [check] over the whole table. *)
Ltac table_fact H check :=
  let Hall := fresh "Hall" in
  assert (forallb (λ kt, check kt.1 kt.2) NODE_FIELD_MAP_items = true) as Hall
    by (vm_compute; reflexivity);
  apply (NODE_FIELD_MAP_forall check Hall) in H; clear Hall; cbv beta in H.

(** Close a decidable closed goal by evaluating its decision procedure. *)
Ltac by_evaluation := apply (bool_decide_unpack _); vm_compute; exact I.

Lemma target_origin k t o :
  NODE_FIELD_MAP !! k = Some t → target t k = Some o → origin o = k.
Proof.
  intros Hkt Ho.
  table_fact Hkt (λ k t, match target t k with
                         | Some o => bool_decide (origin o = k)
                         | None => true
                         end).
  rewrite Ho in Hkt. by apply bool_decide_eq_true in Hkt.
Qed.

Lemma origin_known k t : NODE_FIELD_MAP !! k = Some t → origin k = k.
Proof.
  intros Hkt.
  table_fact Hkt (λ k (_ : translator), bool_decide (origin k = k)).
  by apply bool_decide_eq_true in Hkt.
Qed.

(** No field is renamed to the name of a field of the table. *)
Lemma rename_target_fresh k new_key :
  NODE_FIELD_MAP !! k = Some (rename new_key) → NODE_FIELD_MAP !! new_key = None.
Proof.
  intros Hkt.
  table_fact Hkt (λ (_ : string) t,
                    match t with
                    | rename n => bool_decide (NODE_FIELD_MAP !! n = None)
                    | _ => true
                    end).
  by apply bool_decide_eq_true in Hkt.
Qed.

Lemma elem_of_writes o v kvs :
  (o, v) ∈ writes kvs ↔
  ∃ k t, (k, v) ∈ kvs ∧ NODE_FIELD_MAP !! k = Some t ∧ target t k = Some o.
Proof.
  unfold writes. rewrite list_elem_of_omap. split.
  - intros [[k v'] [Hin Hf]]. simpl in Hf.
    destruct (NODE_FIELD_MAP !! k) as [t|] eqn:Hk; [|done]. simpl in Hf.
    destruct (target t k) as [o'|] eqn:Ho; [|done]. simpl in Hf.
    injection Hf as <- <-. by exists k, t.
  - intros (k & t & Hin & Hk & Ho). exists (k, v). split; [done|].
    simpl. rewrite Hk. simpl. by rewrite Ho.
Qed.

(** Distinct fields write distinct keys. *)
Lemma writes_NoDup kvs : NoDup kvs.*1 → NoDup (writes kvs).*1.
Proof.
  induction kvs as [|[k v] kvs IH]; csimpl; [constructor|].
  intros [Hk Hnd]%NoDup_cons.
  destruct (NODE_FIELD_MAP !! k) as [t|] eqn:Hkt; csimpl; [|by apply IH].
  destruct (target t k) as [o|] eqn:Ho; csimpl; [|by apply IH].
  apply NoDup_cons. split; [|by apply IH].
  intros [[o' v'] [-> Hin]]%list_elem_of_fmap. simpl in *.
  apply elem_of_writes in Hin as (k' & t' & Hin & Hk' & Ho').
  apply Hk, list_elem_of_fmap. exists (k', v'). split; [|done]. simpl.
  by rewrite <-(target_origin _ _ _ Hkt Ho), (target_origin _ _ _ Hk' Ho').
Qed.

(** ** The inner loop *)

(** When the loop ends normally, every field was known and the record is
    the stores of the fields, later ones over earlier ones, over what
    [res_node] held. *)
Lemma translate_fields_Return kvs res out :
  translate_fields kvs res = Return out →
  Forall known kvs ∧ out = list_to_map (reverse (writes kvs)) ∪ res.
Proof.
  revert res. induction kvs as [|[k v] kvs IH]; intros res Hrun.
  - injection Hrun as <-. split; [constructor|]. symmetry. apply (left_id_L ∅ (∪)).
  - cbn [translate_fields] in Hrun.
    destruct (NODE_FIELD_MAP !! k) as [t|] eqn:Hkt; [|done].
    apply IH in Hrun as [Hall ->]. split.
    { constructor; [|done]. unfold known. simpl. by rewrite Hkt. }
    unfold writes. cbn [omap list_omap]. fold (writes kvs).
    cbn [fst snd]. rewrite Hkt, call_target. cbn [mbind option_bind].
    destruct (target t k) as [o|]; cbn [from_option mbind option_bind]; [|done].
    rewrite reverse_cons, list_to_map_app. cbn [list_to_map foldr].
    rewrite insert_empty, <-(assoc_L (∪)). by rewrite <-insert_union_singleton_l.
Qed.

(** The loop stops at the first field without a handler. *)
Lemma translate_fields_Raised pre k v post res :
  Forall known pre → NODE_FIELD_MAP !! k = None →
  translate_fields (pre ++ (k, v) :: post) res = Raised (unknown_field k).
Proof.
  intros Hpre Hk. revert res.
  induction Hpre as [|[k' v'] pre [t Hkt] _ IH]; intros res; cbn [app translate_fields].
  - by rewrite Hk.
  - simpl in Hkt. rewrite Hkt. apply IH.
Qed.

(** It ends normally when there is no such field. *)
Lemma translate_fields_known kvs res :
  Forall known kvs → ∃ out, translate_fields kvs res = Return out.
Proof.
  intros Hall. revert res.
  induction Hall as [|[k v] kvs [t Hkt] _ IH]; intros res; cbn [translate_fields].
  - by eexists.
  - simpl in Hkt. rewrite Hkt. apply IH.
Qed.

(** The first element of a list that fails a decidable test. *)
Lemma split_first {A} (P : A → Prop) `{!∀ x, Decision (P x)} (l : list A) :
  ¬ Forall P l →
  ∃ pre x post, l = pre ++ x :: post ∧ Forall P pre ∧ ¬ P x.
Proof.
  induction l as [|x l IH]; intros Hnot.
  - destruct Hnot. constructor.
  - destruct (decide (P x)) as [Hx|Hx].
    + destruct IH as (pre & y & post & -> & Hpre & Hy).
      { intros Hl. apply Hnot. by constructor. }
      exists (x :: pre), y, post. repeat split; [by constructor|done].
    + exists [], x, l. repeat split; [constructor|done].
Qed.

Lemma not_known kv : ¬ known kv ↔ NODE_FIELD_MAP !! kv.1 = None.
Proof. unfold known. by rewrite eq_None_not_Some. Qed.

(** A raw record has a field without a handler exactly when not all its
    fields are known. *)
Lemma unknown_field_iff (kvs : list (string * json)) :
  (∃ k, k ∈ kvs.*1 ∧ NODE_FIELD_MAP !! k = None) ↔ ¬ Forall known kvs.
Proof.
  split.
  - intros (k & [[k' v] [-> Hin]]%list_elem_of_fmap & Hk) Hall.
    rewrite Forall_forall in Hall. by apply (not_known (k', v)), Hall.
  - intros (pre & [k v] & post & -> & _ & Hk%not_known)%split_first; [|apply _].
    exists k. split; [|done]. apply list_elem_of_fmap. exists (k, v).
    split; [done|]. apply elem_of_app. right. apply elem_of_cons. by left.
Qed.

(** ** The generator *)

Lemma next_report nodes : next (node_parser (report nodes)) = resume nodes.
Proof.
  unfold node_parser, report, next, getitem. cbn [list_to_map foldr].
  by rewrite lookup_insert_eq.
Qed.

Lemma pull_report n nodes :
  pull n (node_parser (report nodes)) = pull n (Suspended nodes).
Proof. destruct n as [|n]; [done|]. cbn [pull]. by rewrite next_report. Qed.

Lemma pull_Closed n : pull n Closed = replicate n StopIteration.
Proof. induction n as [|n IH]; [done|]. cbn [pull next replicate]. by rewrite IH. Qed.

(** While the records normalize, each call of [next] yields one, in order,
    and leaves the generator before the next one. *)
Lemma pull_yields (pre : list (list (string * json))) outs rest n :
  Forall2 (λ kvs out, normalize (JDict kvs) = Return out) pre outs →
  pull (length pre + n) (Suspended (records pre ++ rest))
  = (Yield <$> outs) ++ pull n (Suspended rest).
Proof.
  induction 1 as [|kvs out pre outs Hout _ IH]; [done|].
  cbn [length Nat.add pull next fmap list_fmap app resume].
  rewrite Hout. cbn [fmap list_fmap app]. f_equal. apply IH.
Qed.

(** The same for a consumer that stops early or goes on after the end. *)
Lemma pull_take (pre : list (list (string * json))) outs bad e post n :
  Forall2 (λ kvs out, normalize (JDict kvs) = Return out) pre outs →
  normalize (JDict bad) = Raised e →
  pull n (Suspended (records pre ++ JDict bad :: post))
  = take n ((Yield <$> outs) ++ Raise e :: replicate n StopIteration).
Proof.
  intros Hpre Hbad. revert n.
  induction Hpre as [|kvs out pre outs Hout _ IH]; intros [|n]; try done.
  - cbn [fmap list_fmap app pull next resume]. rewrite Hbad.
    cbn [take]. f_equal. rewrite pull_Closed.
    rewrite take_replicate. f_equal. lia.
  - cbn [fmap list_fmap app pull next resume]. rewrite Hout.
    cbn [take]. f_equal. rewrite IH.
    rewrite !take_app. f_equal.
    destruct (n - length (Yield <$> outs)) as [|m] eqn:Hm; [done|].
    cbn [take]. f_equal. rewrite !take_replicate. f_equal. lia.
Qed.

(** Records whose fields are all known normalize. *)
Lemma normalize_known (pre : list (list (string * json))) :
  Forall (Forall known) pre →
  ∃ outs, Forall2 (λ kvs out, normalize (JDict kvs) = Return out) pre outs.
Proof.
  induction 1 as [|kvs pre Hkvs _ [outs IH]]; [by exists []|].
  destruct (translate_fields_known kvs ∅ Hkvs) as [out Hout].
  exists (out :: outs). by constructor.
Qed.

(** A record with a field without a handler does not. *)
Lemma normalize_unknown (kvs : list (string * json)) :
  ¬ Forall known kvs →
  ∃ k, k ∈ kvs.*1 ∧ NODE_FIELD_MAP !! k = None ∧
       normalize (JDict kvs) = Raised (unknown_field k).
Proof.
  intros (pre & [k v] & post & -> & Hpre & Hk%not_known)%split_first; [|apply _].
  exists k. split_and!; [|done|by apply translate_fields_Raised].
  rewrite fmap_app, fmap_cons. apply elem_of_app. right. apply elem_of_cons. by left.
Qed.

Lemma produced_keys_writes kvs :
  produced_keys kvs = list_to_set (writes kvs).*1.
Proof.
  unfold produced_keys, writes.
  induction kvs as [|[k v] kvs IH]; [done|].
  cbn [fmap list_fmap union_list foldr omap list_omap fst snd].
  fold (union_list (A := gset string)). rewrite IH. clear IH.
  destruct (NODE_FIELD_MAP !! k) as [t|]; cbn [mbind option_bind];
    [|by rewrite (left_id_L ∅ (∪))].
  rewrite call_target.
  destruct (target t k) as [o|]; cbn [from_option mbind option_bind].
  - rewrite insert_empty, dom_singleton_L. by rewrite fmap_cons, list_to_set_cons.
  - by rewrite dom_empty_L, (left_id_L ∅ (∪)).
Qed.

(** ** What a normalized record holds *)

(** Every entry of the record was stored by the handler of some field. *)
Lemma normalize_lookup kvs out o v :
  normalize (JDict kvs) = Return out → out !! o = Some v →
  ∃ k t, (k, v) ∈ kvs ∧ NODE_FIELD_MAP !! k = Some t ∧ target t k = Some o.
Proof.
  intros [_ ->]%translate_fields_Return. rewrite (right_id_L ∅ (∪)).
  intros Hin%elem_of_list_to_map_2. rewrite elem_of_reverse in Hin.
  by apply elem_of_writes in Hin.
Qed.

(** With distinct field names, what a handler stores stays. *)
Lemma normalize_stores kvs out k v t o :
  NoDup kvs.*1 → normalize (JDict kvs) = Return out →
  (k, v) ∈ kvs → NODE_FIELD_MAP !! k = Some t → target t k = Some o →
  out !! o = Some v.
Proof.
  intros Hnd [_ ->]%translate_fields_Return Hin Hkt Ho.
  rewrite (right_id_L ∅ (∪)). apply elem_of_list_to_map_1.
  - rewrite fmap_reverse, reverse_Permutation. by apply writes_NoDup.
  - rewrite elem_of_reverse. apply elem_of_writes. by exists k, t.
Qed.

(** A name of the table is written only by its own field. *)
Lemma writer_of_known k t k' t' :
  NODE_FIELD_MAP !! k = Some t → NODE_FIELD_MAP !! k' = Some t' →
  target t' k' = Some k → k' = k.
Proof.
  intros Hkt Hkt' Ho.
  by rewrite <-(target_origin _ _ _ Hkt' Ho), (origin_known _ _ Hkt).
Qed.

(** The name of a field that is ignored or renamed is not a key of the
    record. *)
Lemma normalize_not_stored kvs out k t :
  normalize (JDict kvs) = Return out →
  NODE_FIELD_MAP !! k = Some t → target t k ≠ Some k → out !! k = None.
Proof.
  intros Hrun Hkt Hne. apply eq_None_not_Some. intros [v Hv].
  destruct (normalize_lookup _ _ _ _ Hrun Hv) as (k' & t' & _ & Hkt' & Ho).
  pose proof (writer_of_known _ _ _ _ Hkt Hkt' Ho) as ->.
  by simplify_eq.
Qed.


(** The handlers of [name], [real_memory] and [hostname] produce the keys
    [name] and [memory]. *)
Example produced_keys_sample :
  produced_keys [("name", JStr "node1"); ("real_memory", JInt 1800);
                 ("hostname", JStr "n1")]
  = {["name"; "memory"]}.
Proof. vm_compute. reflexivity. Qed.

(** ** The claims *)

(** C1: a raw node record with a field that has no entry in the table does
    not normalize: the loop raises the [ValueError] whose message names the
    sinfo node output and one such field, no record is returned, and the
    generator raises that error instead of yielding. *)
Theorem C1_unknown_field_raises (src_node : list (string * json)) :
  (∃ k, k ∈ src_node.*1 ∧ NODE_FIELD_MAP !! k = None) →
  ∃ k, k ∈ src_node.*1 ∧ NODE_FIELD_MAP !! k = None ∧
       normalize (JDict src_node)
       = Raised (ValueError ("Unknown field in sinfo node output: " +:+ k)) ∧
       (∀ out, normalize (JDict src_node) ≠ Return out) ∧
       ∀ rest, next (Suspended (JDict src_node :: rest))
               = (Raise (ValueError ("Unknown field in sinfo node output: " +:+ k)),
                  Closed).
Proof.
  intros Hbad%unknown_field_iff.
  destruct (normalize_unknown _ Hbad) as (k & Hin & Hk & Hrun).
  exists k. split_and!; [done..| |].
  - intros out. by rewrite Hrun.
  - intros rest. cbn [next resume]. by rewrite Hrun.
Qed.

Lemma C1_unknown_field_raises_witness :
  ∃ k, k ∈ [("name", JStr "node1"); ("new_future_field", JInt 1)].*1 ∧
       NODE_FIELD_MAP !! k = None ∧
       normalize (JDict [("name", JStr "node1"); ("new_future_field", JInt 1)])
       = Raised (ValueError ("Unknown field in sinfo node output: " +:+ k)) ∧
       (∀ out, normalize (JDict [("name", JStr "node1"); ("new_future_field", JInt 1)])
               ≠ Return out) ∧
       ∀ rest, next (Suspended (JDict [("name", JStr "node1");
                                        ("new_future_field", JInt 1)] :: rest))
               = (Raise (ValueError ("Unknown field in sinfo node output: " +:+ k)),
                  Closed).
Proof.
  apply C1_unknown_field_raises. exists "new_future_field". split.
  - right. left.
  - vm_compute. reflexivity.
Defined.

(** C2: a raw node record whose fields all have an entry in the table
    normalizes, and the keys of the record returned are exactly the keys
    the handlers of its fields produce. *)
Theorem C2_known_fields_exact_keys (src_node : list (string * json)) :
  (∀ k, k ∈ src_node.*1 → is_Some (NODE_FIELD_MAP !! k)) →
  ∃ out, normalize (JDict src_node) = Return out ∧
         dom out = produced_keys src_node.
Proof.
  intros Hall.
  assert (Forall known src_node) as Hknown.
  { apply Forall_forall. intros [k v] Hin. apply Hall, list_elem_of_fmap.
    by exists (k, v). }
  destruct (translate_fields_known _ ∅ Hknown) as [out Hout].
  exists out. split; [done|].
  apply translate_fields_Return in Hout as [_ ->].
  rewrite (right_id_L ∅ (∪)), dom_list_to_map_L, produced_keys_writes.
  apply set_eq. intros o.
  by rewrite !elem_of_list_to_set, fmap_reverse, elem_of_reverse.
Qed.

Lemma C2_known_fields_exact_keys_witness :
  ∃ out, normalize (JDict [("name", JStr "node1"); ("real_memory", JInt 1800);
                           ("hostname", JStr "n1")]) = Return out ∧
         dom out = produced_keys [("name", JStr "node1"); ("real_memory", JInt 1800);
                                  ("hostname", JStr "n1")].
Proof.
  apply C2_known_fields_exact_keys. intros k Hk.
  repeat (apply elem_of_cons in Hk as [->|Hk]; [by vm_compute; eexists|]).
  by apply elem_of_nil in Hk.
Defined.

(** C3, as stated, fails: a report whose ["nodes"] value is an object, not
    a sequence, is not rejected. Iterating the empty object ends the
    generator at once, without any error. *)
Lemma C3_counterexample :
  pull 2 (node_parser (JDict [("nodes", JDict [])])) = [StopIteration; StopIteration].
Proof. vm_compute. reflexivity. Qed.

(** C3, amended: a decoded report without the ["nodes"] key makes the first
    call of [next] raise [KeyError], and one whose ["nodes"] value is null,
    a boolean or a number (or that is not an object at all) makes it raise
    [TypeError]; in each case no record is processed and none is ever
    yielded. *)
Theorem C3_rejected_before_any_record (sinfo_data : json) (e : exn) (n : nat) :
  rejected sinfo_data e →
  pull (S n) (node_parser sinfo_data) = Raise e :: replicate n StopIteration.
Proof.
  intros Hrej. cbn [pull]. rewrite <-pull_Closed.
  assert (next (node_parser sinfo_data) = (Raise e, Closed)) as ->; [|done].
  unfold node_parser, next, getitem.
  destruct Hrej as [d Hd|d v Hnd Hv Hsc|j Hj].
  - by rewrite (not_elem_of_list_to_map_1 d "nodes" Hd).
  - rewrite (elem_of_list_to_map_1 d "nodes" v Hnd Hv).
    by destruct v.
  - destruct j; try done. by destruct (Hj d).
Qed.

Lemma C3_rejected_before_any_record_witness :
  pull 3 (node_parser (JDict [("meta", JNull)]))
  = Raise (KeyError "nodes") :: replicate 2 StopIteration.
Proof.
  apply (C3_rejected_before_any_record (JDict [("meta", JNull)]) (KeyError "nodes") 2).
  apply rejected_no_key. intros Hin.
  apply elem_of_cons in Hin as [Heq|Hin]; [discriminate Heq|].
  by apply elem_of_nil in Hin.
Defined.

(** C4: when record [k] of a report is the first one with a field that has
    no entry in the table, the first [k-1] calls of [next] yield the
    normalized records before it, and the [k]-th call raises the error on
    record [k]; the records after it play no part. *)
Theorem C4_records_before_failure_are_yielded
    (pre : list (list (string * json))) (bad : list (string * json))
    (post : list (list (string * json))) :
  Forall (Forall known) pre →
  (∃ k, k ∈ bad.*1 ∧ NODE_FIELD_MAP !! k = None) →
  ∃ outs k,
    Forall2 (λ kvs out, normalize (JDict kvs) = Return out) pre outs ∧
    k ∈ bad.*1 ∧ NODE_FIELD_MAP !! k = None ∧
    pull (length pre + 1) (node_parser (report (records (pre ++ bad :: post))))
    = (Yield <$> outs) ++ [Raise (unknown_field k)].
Proof.
  intros Hpre Hbad%unknown_field_iff.
  destruct (normalize_known pre Hpre) as [outs Houts].
  destruct (normalize_unknown bad Hbad) as (k & Hin & Hk & Hrun).
  exists outs, k. split_and!; [done..|].
  rewrite pull_report, fmap_app, fmap_cons, (pull_yields pre outs _ 1 Houts).
  f_equal. cbn [pull next resume]. by rewrite Hrun.
Qed.

Lemma C4_records_before_failure_are_yielded_witness :
  ∃ outs k,
    Forall2 (λ kvs out, normalize (JDict kvs) = Return out)
      [[("name", JStr "node1")]] outs ∧
    k ∈ [("new_future_field", JInt 1)].*1 ∧ NODE_FIELD_MAP !! k = None ∧
    pull (length [[("name", JStr "node1")]] + 1)
      (node_parser (report (records ([[("name", JStr "node1")]]
         ++ [("new_future_field", JInt 1)] :: [[("name", JStr "node3")]]))))
    = (Yield <$> outs) ++ [Raise (unknown_field k)].
Proof.
  apply C4_records_before_failure_are_yielded.
  - repeat constructor. by vm_compute; eexists.
  - exists "new_future_field". split; [left|]. vm_compute. reflexivity.
Defined.

(** C5, as stated, fails: with the unrecognized field in the second record,
    the first record is yielded to the consumer before the error. *)
Lemma C5_counterexample :
  NODE_FIELD_MAP !! "new_future_field" = None ∧
  pull 2 (node_parser (report
    [JDict [("name", JStr "node1")]; JDict [("new_future_field", JInt 1)]]))
  = [Yield {["name" := JStr "node1"]};
     Raise (ValueError "Unknown field in sinfo node output: new_future_field")].
Proof. split; vm_compute; reflexivity. Qed.

(** C5, amended: a report with an unrecognized field in some record raises
    the [ValueError] naming such a field when the consumer reaches the
    first offending record; exactly the records before that one are
    yielded, and nothing is yielded from it on. *)
Theorem C5_failure_at_first_offending_record (recs : list (list (string * json))) :
  Exists (λ kvs, ∃ k, k ∈ kvs.*1 ∧ NODE_FIELD_MAP !! k = None) recs →
  ∃ pre bad post outs k,
    recs = pre ++ bad :: post ∧
    Forall (Forall known) pre ∧
    k ∈ bad.*1 ∧ NODE_FIELD_MAP !! k = None ∧
    Forall2 (λ kvs out, normalize (JDict kvs) = Return out) pre outs ∧
    ∀ n, pull n (node_parser (report (records recs)))
         = take n ((Yield <$> outs)
                   ++ Raise (unknown_field k) :: replicate n StopIteration).
Proof.
  intros Hex.
  assert (¬ Forall (Forall known) recs) as Hnot.
  { intros Hall. apply Exists_exists in Hex as (kvs & Hin & Hbad).
    rewrite Forall_forall in Hall. apply unknown_field_iff in Hbad. by apply Hbad, Hall. }
  apply split_first in Hnot as (pre & bad & post & -> & Hpre & Hbad); [|apply _].
  destruct (normalize_known pre Hpre) as [outs Houts].
  destruct (normalize_unknown bad Hbad) as (k & Hin & Hk & Hrun).
  exists pre, bad, post, outs, k. split_and!; [done..|].
  intros n. rewrite pull_report, fmap_app, fmap_cons.
  by apply pull_take.
Qed.

Lemma C5_failure_at_first_offending_record_witness :
  ∃ pre bad post outs k,
    [[("name", JStr "node1")]; [("new_future_field", JInt 1)]] = pre ++ bad :: post ∧
    Forall (Forall known) pre ∧
    k ∈ bad.*1 ∧ NODE_FIELD_MAP !! k = None ∧
    Forall2 (λ kvs out, normalize (JDict kvs) = Return out) pre outs ∧
    ∀ n, pull n (node_parser (report (records
           [[("name", JStr "node1")]; [("new_future_field", JInt 1)]])))
         = take n ((Yield <$> outs)
                   ++ Raise (unknown_field k) :: replicate n StopIteration).
Proof.
  apply C5_failure_at_first_offending_record.
  apply Exists_cons_tl, Exists_cons_hd.
  exists "new_future_field". split; [left|]. vm_compute. reflexivity.
Defined.

(** C6: parsing the report
    [{"nodes": [{"name": "node1", "real_memory": 1800, "state": "down",
    "architecture": "x86_64"}]}] yields exactly one record, equal to
    [{"name": "node1", "memory": 1800, "state": "down", "arch": "x86_64"}],
    and then ends. *)
Theorem C6_end_to_end :
  pull 2 (node_parser (report
    [JDict [("name", JStr "node1"); ("real_memory", JInt 1800);
            ("state", JStr "down"); ("architecture", JStr "x86_64")]]))
  = [Yield (<["name" := JStr "node1"]> (<["memory" := JInt 1800]>
             (<["state" := JStr "down"]> {["arch" := JStr "x86_64"]})));
     StopIteration].
Proof. vm_compute. reflexivity. Qed.




(** C8: for a field mapped to [rename(new_key)], the handler applied to the
    value [v] stores exactly [{new_key: v}], and the record of a raw record
    holding that field has [v] itself under [new_key] and no entry under
    the original name. *)
Theorem C8_rename_stores_under_new_key
    (src_node : list (string * json)) (k new_key : string) (v : json)
    (out : gmap string json) :
  NoDup src_node.*1 → (k, v) ∈ src_node →
  NODE_FIELD_MAP !! k = Some (rename new_key) →
  normalize (JDict src_node) = Return out →
  call (rename new_key) k v ∅ = {[new_key := v]} ∧
  out !! new_key = Some v ∧
  out !! k = None.
Proof.
  intros Hnd Hin Hk Hrun. split_and!.
  - cbn [call]. apply insert_empty.
  - by apply (normalize_stores _ _ _ _ _ _ Hnd Hrun Hin Hk).
  - apply (normalize_not_stored _ _ _ _ Hrun Hk). intros [= ->].
    apply rename_target_fresh in Hk as Hfresh. by simplify_eq.
Qed.

Lemma C8_rename_stores_under_new_key_witness :
  call (rename "memory") "real_memory" (JInt 1800) ∅ = {["memory" := JInt 1800]} ∧
  ({["name" := JStr "node1"; "memory" := JInt 1800]} : gmap string json) !! "memory"
  = Some (JInt 1800) ∧
  ({["name" := JStr "node1"; "memory" := JInt 1800]} : gmap string json) !! "real_memory"
  = None.
Proof.
  apply (C8_rename_stores_under_new_key
           [("name", JStr "node1"); ("real_memory", JInt 1800)]).
  - by_evaluation.
  - right. left.
  - vm_compute. reflexivity.
  - vm_compute. reflexivity.
Defined.

(** C9, as stated, fails: the string of [tres] is not decoded; the record
    holds the raw string, not a mapping with the keys [cpu], [mem] and
    [billing]. *)
Lemma C9_counterexample :
  ∃ out, normalize (JDict [("tres", JStr "cpu=40,mem=386618M,billing=96")])
         = Return out ∧
         out !! "tres" = Some (JStr "cpu=40,mem=386618M,billing=96") ∧
         ∀ d, out !! "tres" ≠ Some (JDict d).
Proof.
  eexists. split; [vm_compute; reflexivity|].
  split; [vm_compute; reflexivity|].
  intros d. vm_compute. discriminate.
Qed.

(** C9, amended: the node parser decodes no composite string. [tres] and
    [tres_used] are mapped to [copy], so the value of such a field is
    stored as it is, under the same key. *)
Theorem C9_tres_is_copied
    (src_node : list (string * json)) (k : string) (v : json)
    (out : gmap string json) :
  k = "tres" ∨ k = "tres_used" →
  NoDup src_node.*1 → (k, v) ∈ src_node →
  normalize (JDict src_node) = Return out →
  NODE_FIELD_MAP !! k = Some copy ∧ out !! k = Some v.
Proof.
  intros Hk Hnd Hin Hrun.
  assert (NODE_FIELD_MAP !! k = Some copy) as Hcopy.
  { destruct Hk as [-> | ->]; vm_compute; reflexivity. }
  split; [done|]. by apply (normalize_stores _ _ _ _ _ _ Hnd Hrun Hin Hcopy).
Qed.

Lemma C9_tres_is_copied_witness :
  NODE_FIELD_MAP !! "tres" = Some copy ∧
  ({["tres" := JStr "cpu=40,mem=386618M,billing=96"]} : gmap string json) !! "tres"
  = Some (JStr "cpu=40,mem=386618M,billing=96").
Proof.
  apply (C9_tres_is_copied [("tres", JStr "cpu=40,mem=386618M,billing=96")]).
  - by left.
  - by_evaluation.
  - left.
  - vm_compute. reflexivity.
Defined.

(** C10: when a raw node record with the field ["address"] of value [v] is
    yielded, its record holds [v] under ["addr"] and has no key
    ["address"]. *)
Theorem C10_address_is_stored_as_addr
    (src_node : list (string * json)) (v : json) (rest : list json)
    (out : gmap string json) (g : generator) :
  NoDup src_node.*1 → ("address", v) ∈ src_node →
  next (Suspended (JDict src_node :: rest)) = (Yield out, g) →
  out !! "addr" = Some v ∧ out !! "address" = None.
Proof.
  intros Hnd Hin Hnext. cbn [next resume] in Hnext.
  destruct (normalize (JDict src_node)) as [out'|e] eqn:Hrun; [|done].
  injection Hnext as -> _.
  assert (NODE_FIELD_MAP !! "address" = Some (rename "addr")) as Hk
    by (vm_compute; reflexivity).
  split.
  - by apply (normalize_stores _ _ _ _ _ _ Hnd Hrun Hin Hk).
  - by apply (normalize_not_stored _ _ _ _ Hrun Hk).
Qed.

Lemma C10_address_is_stored_as_addr_witness :
  ({["name" := JStr "node1"; "addr" := JStr "node_addr"]} : gmap string json) !! "addr"
  = Some (JStr "node_addr") ∧
  ({["name" := JStr "node1"; "addr" := JStr "node_addr"]} : gmap string json) !! "address"
  = None.
Proof.
  apply (C10_address_is_stored_as_addr
           [("name", JStr "node1"); ("address", JStr "node_addr")]
           (JStr "node_addr") [] _ (Suspended [])).
  - by_evaluation.
  - right. left.
  - vm_compute. reflexivity.
Defined.

(** ** Beyond the claims: the generator on any input *)

(** Padding with more [StopIteration]s than are taken changes nothing. *)
Lemma take_pad {A} (l : list A) (x : A) (n m : nat) :
  (n ≤ m)%nat → take n (l ++ replicate m x) = take n (l ++ replicate n x).
Proof.
  intros Hnm. rewrite !take_app, !take_replicate. do 2 f_equal. lia.
Qed.

Lemma next_Created sinfo_data :
  next (Created sinfo_data)
  = match src_nodes_of sinfo_data with
    | Raised e => (Raise e, Closed)
    | Return l => resume l
    end.
Proof. unfold next, src_nodes_of. by destruct (getitem sinfo_data "nodes"). Qed.

Lemma pull_Created sinfo_data l n :
  src_nodes_of sinfo_data = Return l →
  pull n (node_parser sinfo_data) = pull n (Suspended l).
Proof.
  intros Hl. destruct n as [|n]; [done|].
  unfold node_parser. cbn [pull]. by rewrite next_Created, Hl.
Qed.

(** Only the ["nodes"] entry of the top-level object matters. *)
Lemma src_nodes_of_entry d v :
  NoDup d.*1 → ("nodes", v) ∈ d → src_nodes_of (JDict d) = iter v.
Proof.
  intros Hnd Hin. unfold src_nodes_of, getitem.
  by rewrite (elem_of_list_to_map_1 d "nodes" v Hnd Hin).
Qed.

(** The signals of a suspended generator, for nodes of any kind: the
    records of the nodes that normalize, then the error of the first node
    that does not, if there is one, then [StopIteration] for ever. *)
Lemma pull_Suspended_shape (nodes : list json) :
  ∃ outs fin,
    (fin = [] ∧ Forall2 (λ j out, normalize j = Return out) nodes outs ∨
     ∃ pre j post e,
       nodes = pre ++ j :: post ∧ fin = [Raise e] ∧ normalize j = Raised e ∧
       Forall2 (λ j out, normalize j = Return out) pre outs) ∧
    ∀ n, pull n (Suspended nodes)
         = take n ((Yield <$> outs) ++ fin ++ replicate n StopIteration).
Proof.
  induction nodes as [|j nodes (outs & fin & Hshape & Hpull)].
  - exists [], []. split; [left; by split; [|constructor]|].
    intros [|n]; [done|]. cbn [pull next resume fmap list_fmap app].
    rewrite pull_Closed. by rewrite firstn_all2 by (by rewrite length_replicate).
  - destruct (normalize j) as [out|e] eqn:Hj.
    + exists (out :: outs), fin. split.
      * destruct Hshape as [[-> Hall]|(pre & j' & post & e & -> & -> & Hj' & Hall)].
        { left. split; [done|]. by constructor. }
        right. exists (j :: pre), j', post, e. split_and!; [done..|]. by constructor.
      * intros [|n]; [done|]. cbn [pull next resume]. rewrite Hj.
        cbn [fmap list_fmap app take]. f_equal. rewrite Hpull.
        rewrite !(assoc_L (++)). symmetry. apply take_pad. lia.
    + exists [], [Raise e]. split.
      * right. exists [], j, nodes, e. split_and!; [done..|constructor].
      * intros [|n]; [done|]. cbn [pull next resume]. rewrite Hj.
        cbn [fmap list_fmap app take]. f_equal. rewrite pull_Closed.
        rewrite take_replicate. f_equal. lia.
Qed.

(** With nodes that all normalize, the signals are the records, in order,
    then [StopIteration]. *)
Lemma pull_all_yield (nodes : list json) outs n :
  Forall2 (λ j out, normalize j = Return out) nodes outs →
  pull n (Suspended nodes) = take n ((Yield <$> outs) ++ replicate n StopIteration).
Proof.
  intros Hall. revert n.
  induction Hall as [|j out nodes outs Hout _ IH]; intros [|n]; try done.
  - cbn [pull next resume fmap list_fmap app]. rewrite pull_Closed.
    by rewrite firstn_all2 by (by rewrite length_replicate).
  - cbn [pull next resume]. rewrite Hout.
    cbn [fmap list_fmap app take]. f_equal. rewrite IH.
    symmetry. apply take_pad. lia.
Qed.

(** X1: on a report of raw records whose fields are all known, the parser
    yields one record per raw record, in the order of the report, each the
    normalization of its raw record, and then stops for good. *)
Theorem X1_one_record_per_node (recs : list (list (string * json))) :
  Forall (Forall known) recs →
  ∃ outs,
    Forall2 (λ kvs out, normalize (JDict kvs) = Return out) recs outs ∧
    ∀ n, pull n (node_parser (report (records recs)))
         = take n ((Yield <$> outs) ++ replicate n StopIteration).
Proof.
  intros Hall. destruct (normalize_known recs Hall) as [outs Houts].
  exists outs. split; [done|]. intros n. rewrite pull_report.
  apply pull_all_yield. by apply Forall2_fmap_l.
Qed.

Lemma X1_one_record_per_node_witness :
  ∃ outs,
    Forall2 (λ kvs out, normalize (JDict kvs) = Return out)
      [[("name", JStr "node1")]; [("name", JStr "node2"); ("port", JInt 6812)]] outs ∧
    ∀ n, pull n (node_parser (report (records
           [[("name", JStr "node1")]; [("name", JStr "node2"); ("port", JInt 6812)]])))
         = take n ((Yield <$> outs) ++ replicate n StopIteration).
Proof.
  apply X1_one_record_per_node.
  repeat constructor; by vm_compute; eexists.
Defined.

(** X2: whatever the nodes of a report are, the signals of the parser are
    the records of the nodes before the first one that does not normalize,
    then the error of that node, once, if there is such a node, then
    [StopIteration] for ever.  No record follows an error, and the parser
    ends normally only after one record per node. *)
Theorem X2_records_then_one_error_then_stop (nodes : list json) :
  ∃ outs fin,
    (fin = [] ∧ Forall2 (λ j out, normalize j = Return out) nodes outs ∨
     ∃ pre j post e,
       nodes = pre ++ j :: post ∧ fin = [Raise e] ∧ normalize j = Raised e ∧
       Forall2 (λ j out, normalize j = Return out) pre outs) ∧
    ∀ n, pull n (node_parser (report nodes))
         = take n ((Yield <$> outs) ++ fin ++ replicate n StopIteration).
Proof.
  destruct (pull_Suspended_shape nodes) as (outs & fin & Hshape & Hpull).
  exists outs, fin. split; [done|]. intros n. by rewrite pull_report.
Qed.

(** X3: a node that is not an object has no [items]: after the records of
    the nodes before it, the parser raises [AttributeError] and is
    finished, whatever comes after that node. *)
Theorem X3_node_not_an_object
    (pre : list (list (string * json))) (j : json) (post : list json) (n : nat) :
  Forall (Forall known) pre → (∀ d, j ≠ JDict d) →
  ∃ outs,
    Forall2 (λ kvs out, normalize (JDict kvs) = Return out) pre outs ∧
    pull (length pre + S n) (node_parser (report (records pre ++ j :: post)))
    = (Yield <$> outs) ++ Raise AttributeError :: replicate n StopIteration.
Proof.
  intros Hpre Hj. destruct (normalize_known pre Hpre) as [outs Houts].
  exists outs. split; [done|].
  rewrite pull_report, (pull_yields pre outs _ (S n) Houts). f_equal.
  cbn [pull next resume].
  assert (normalize j = Raised AttributeError) as ->.
  { destruct j; try done. by destruct (Hj d). }
  by rewrite pull_Closed.
Qed.

Lemma X3_node_not_an_object_witness :
  ∃ outs,
    Forall2 (λ kvs out, normalize (JDict kvs) = Return out)
      [[("name", JStr "node1")]] outs ∧
    pull (length [[("name", JStr "node1")]] + 2)
      (node_parser (report (records [[("name", JStr "node1")]]
                            ++ JStr "node2" :: [JDict [("name", JStr "node3")]])))
    = (Yield <$> outs) ++ Raise AttributeError :: replicate 1 StopIteration.
Proof.
  apply (X3_node_not_an_object [[("name", JStr "node1")]] (JStr "node2")
           [JDict [("name", JStr "node3")]] 1).
  - repeat constructor. by vm_compute; eexists.
  - intros d. discriminate.
Defined.

(** X4: the parser is lazy in the report itself: what the first [n] calls
    of [next] give depends on the first [n] nodes only. *)
Theorem X4_first_pulls_read_first_nodes (l rest rest' : list json) (n : nat) :
  (n ≤ length l)%nat →
  pull n (node_parser (report (l ++ rest)))
  = pull n (node_parser (report (l ++ rest'))).
Proof.
  rewrite !pull_report. revert n.
  induction l as [|j l IH]; intros [|n] Hn; cbn [length] in Hn; try done; [lia|].
  cbn [app pull next resume].
  destruct (normalize j) as [out|e]; [|done].
  f_equal. apply IH. lia.
Qed.

Lemma X4_first_pulls_read_first_nodes_witness :
  pull 1 (node_parser (report ([JDict [("name", JStr "node1")]] ++ [JInt 7])))
  = pull 1 (node_parser (report ([JDict [("name", JStr "node1")]] ++ []))).
Proof.
  apply (X4_first_pulls_read_first_nodes [JDict [("name", JStr "node1")]]).
  cbn [length]. lia.
Defined.

(** X5: of the top-level object only the ["nodes"] entry is read: the other
    entries of the report ([meta], [errors], ...) change nothing. *)
Theorem X5_other_top_level_keys_unread
    (d : list (string * json)) (v : json) (n : nat) :
  NoDup d.*1 → ("nodes", v) ∈ d →
  pull n (node_parser (JDict d)) = pull n (node_parser (JDict [("nodes", v)])).
Proof.
  intros Hnd Hin. destruct n as [|n]; [done|].
  unfold node_parser. cbn [pull]. rewrite !next_Created.
  rewrite (src_nodes_of_entry d v Hnd Hin).
  rewrite (src_nodes_of_entry [("nodes", v)] v); [done| |by left].
  apply NoDup_singleton.
Qed.

Lemma X5_other_top_level_keys_unread_witness :
  pull 2 (node_parser (JDict [("meta", JDict []);
                              ("nodes", JList [JDict [("name", JStr "node1")]])]))
  = pull 2 (node_parser (JDict [("nodes", JList [JDict [("name", JStr "node1")]])])).
Proof.
  apply X5_other_top_level_keys_unread.
  - by_evaluation.
  - right. left.
Defined.

(** X6: when the value of ["nodes"] is an object with an entry, or a string
    with a character, the loop visits a key or a character, which has no
    [items]: the first call of [next] raises [AttributeError] and no
    record is yielded. *)
Theorem X6_nodes_object_or_string (v : json) (n : nat) :
  (∃ kv d, v = JDict (kv :: d)) ∨ (∃ c s, v = JStr (String c s)) →
  pull (S n) (node_parser (JDict [("nodes", v)]))
  = Raise AttributeError :: replicate n StopIteration.
Proof.
  intros Hv. unfold node_parser. cbn [pull]. rewrite next_Created.
  rewrite (src_nodes_of_entry [("nodes", v)] v); [|apply NoDup_singleton|by left].
  destruct Hv as [(kv & d & ->)|(c & s & ->)];
    cbn [iter fmap list_fmap String.list_ascii_of_string resume normalize items];
    by rewrite pull_Closed.
Qed.

Lemma X6_nodes_object_or_string_witness :
  pull 3 (node_parser (JDict [("nodes", JDict [("node1", JDict [])])]))
  = Raise AttributeError :: replicate 2 StopIteration.
Proof.
  apply (X6_nodes_object_or_string (JDict [("node1", JDict [])]) 2).
  left. by eexists _, _.
Defined.

(** ** Beyond the claims: the record of one node *)

(** Every known field makes one store, except the ignored ones. *)
Lemma length_writes kvs :
  Forall known kvs →
  length (writes kvs)
  = length (filter (λ kv, NODE_FIELD_MAP !! kv.1 ≠ Some ignore) kvs).
Proof.
  unfold writes.
  induction 1 as [|[k v] kvs [t Hkt] _ IH]; [done|]. simpl in Hkt.
  cbn [omap list_omap fst snd]. rewrite Hkt. cbn [mbind option_bind].
  destruct t; cbn [target mbind option_bind].
  - rewrite filter_cons_True by (simpl; by rewrite Hkt). cbn [length]. by f_equal.
  - rewrite filter_cons_False by (simpl; rewrite Hkt; auto). done.
  - rewrite filter_cons_True by (simpl; by rewrite Hkt). cbn [length]. by f_equal.
Qed.

(** The handlers move values without reading them. *)
Lemma translate_fields_fmap (f : json → json) kvs res :
  translate_fields (prod_map id f <$> kvs) (f <$> res)
  = match translate_fields kvs res with
    | Return out => Return (f <$> out)
    | Raised e => Raised e
    end.
Proof.
  revert res. induction kvs as [|[k v] kvs IH]; intros res; [done|].
  cbn [fmap list_fmap prod_map fst snd id translate_fields].
  destruct (NODE_FIELD_MAP !! k) as [t|]; [|done].
  rewrite <-IH. f_equal. destruct t; cbn [call]; by rewrite ?fmap_insert.
Qed.

(** X7: the error names the first field, in the order of the record, that
    has no entry in the table; the fields after it are not looked at, known
    or not. *)
Theorem X7_error_names_first_unknown_field
    (pre : list (string * json)) (k : string) (v : json)
    (post : list (string * json)) :
  Forall known pre → NODE_FIELD_MAP !! k = None →
  normalize (JDict (pre ++ (k, v) :: post))
  = Raised (ValueError ("Unknown field in sinfo node output: " +:+ k)).
Proof. intros Hpre Hk. by apply translate_fields_Raised. Qed.

Lemma X7_error_names_first_unknown_field_witness :
  normalize (JDict ([("name", JStr "node1")] ++ ("zeta", JInt 1) :: [("alpha", JInt 2)]))
  = Raised (ValueError ("Unknown field in sinfo node output: " +:+ "zeta")).
Proof.
  apply X7_error_names_first_unknown_field.
  - repeat constructor. by vm_compute; eexists.
  - vm_compute. reflexivity.
Defined.

(** X8: the keys of a normalized record are among the fifteen canonical
    keys: no ignored name, and no original name of a renamed field. *)
Theorem X8_record_keys_are_canonical
    (src_node : list (string * json)) (out : gmap string json) :
  normalize (JDict src_node) = Return out → dom out ⊆ canonical_keys.
Proof.
  intros Hrun o [v Hv]%elem_of_dom.
  destruct (normalize_lookup _ _ _ _ Hrun Hv) as (k & t & _ & Hkt & Ho).
  table_fact Hkt (λ k t, match target t k with
                         | Some o => bool_decide (o ∈ canonical_keys)
                         | None => true
                         end).
  rewrite Ho in Hkt. by apply bool_decide_eq_true in Hkt.
Qed.

Lemma X8_record_keys_are_canonical_witness :
  dom ({["name" := JStr "node1"; "arch" := JStr "x86_64"]} : gmap string json)
  ⊆ canonical_keys.
Proof.
  apply (X8_record_keys_are_canonical
           [("name", JStr "node1"); ("boards", JInt 1); ("architecture", JStr "x86_64")]).
  vm_compute. reflexivity.
Defined.

(** X9: each canonical key is reached, from a single source field: some
    field name, alone in a raw record with any value, gives the record
    holding just that value under that key. *)
Theorem X9_canonical_keys_are_reached (o : string) :
  o ∈ canonical_keys →
  ∃ k, ∀ v, normalize (JDict [(k, v)]) = Return {[o := v]}.
Proof.
  unfold canonical_keys. rewrite elem_of_list_to_set. intros Ho.
  exists (origin o).
  repeat (apply elem_of_cons in Ho as [->|Ho];
          [intros v; vm_compute; reflexivity|]).
  by apply elem_of_nil in Ho.
Qed.

Lemma X9_canonical_keys_are_reached_witness :
  ∃ k, ∀ v, normalize (JDict [(k, v)]) = Return {["memory" := v]}.
Proof.
  apply X9_canonical_keys_are_reached. by_evaluation.
Defined.

(** X10: with distinct field names, a normalized record has exactly one
    entry per field that is not ignored: no two fields share a key. *)
Theorem X10_one_entry_per_kept_field
    (src_node : list (string * json)) (out : gmap string json) :
  NoDup src_node.*1 → normalize (JDict src_node) = Return out →
  size out
  = length (filter (λ kv, NODE_FIELD_MAP !! kv.1 ≠ Some ignore) src_node).
Proof.
  intros Hnd [Hknown ->]%translate_fields_Return.
  rewrite (right_id_L ∅ (∪)), map_size_list_to_map.
  - by rewrite length_reverse, length_writes.
  - rewrite fmap_reverse, reverse_Permutation. by apply writes_NoDup.
Qed.

Lemma X10_one_entry_per_kept_field_witness :
  size ({["name" := JStr "node1"; "arch" := JStr "x86_64"]} : gmap string json)
  = length (filter (λ kv, NODE_FIELD_MAP !! kv.1 ≠ Some ignore)
              [("name", JStr "node1"); ("boards", JInt 1);
               ("architecture", JStr "x86_64")]).
Proof.
  apply X10_one_entry_per_kept_field.
  - by_evaluation.
  - vm_compute. reflexivity.
Defined.

(** X11: the order of the fields of a raw record does not matter to the
    record it normalizes to. *)
Theorem X11_field_order_is_irrelevant
    (src_node src_node' : list (string * json)) (out : gmap string json) :
  NoDup src_node.*1 → src_node ≡ₚ src_node' →
  normalize (JDict src_node) = Return out →
  normalize (JDict src_node') = Return out.
Proof.
  intros Hnd Hperm [Hknown ->]%translate_fields_Return.
  assert (Forall known src_node') as Hknown' by (by rewrite <-Hperm).
  destruct (translate_fields_known _ ∅ Hknown') as [out' Hout'].
  cbn [normalize items]. rewrite Hout'. f_equal.
  apply translate_fields_Return in Hout' as [_ ->].
  symmetry. f_equal. apply list_to_map_proper.
  - rewrite fmap_reverse, reverse_Permutation. by apply writes_NoDup.
  - rewrite !reverse_Permutation. unfold writes. by rewrite Hperm.
Qed.

Lemma X11_field_order_is_irrelevant_witness :
  normalize (JDict [("architecture", JStr "x86_64"); ("name", JStr "node1")])
  = Return {["name" := JStr "node1"; "arch" := JStr "x86_64"]}.
Proof.
  apply (X11_field_order_is_irrelevant
           [("name", JStr "node1"); ("architecture", JStr "x86_64")]).
  - by_evaluation.
  - apply perm_swap.
  - vm_compute. reflexivity.
Defined.

(** X12: the parser never looks into a value: changing the values of a raw
    record by any function changes the values of its record by the same
    function, and neither its keys nor whether it is an error. *)
Theorem X12_values_are_moved_unread
    (f : json → json) (src_node : list (string * json)) :
  normalize (JDict (prod_map id f <$> src_node))
  = match normalize (JDict src_node) with
    | Return out => Return (f <$> out)
    | Raised e => Raised e
    end.
Proof.
  cbn [normalize items].
  by rewrite <-translate_fields_fmap, fmap_empty.
Qed.

(** X13: a field mapped to [copy] reads back from the record as from the
    raw record: the same value when the raw record has it, and no entry
    when it has not. *)
Theorem X13_copied_field_reads_back
    (src_node : list (string * json)) (k : string) (out : gmap string json) :
  NODE_FIELD_MAP !! k = Some copy →
  NoDup src_node.*1 → normalize (JDict src_node) = Return out →
  out !! k = (list_to_map src_node : gmap string json) !! k.
Proof.
  intros Hk Hnd Hrun.
  destruct ((list_to_map src_node : gmap string json) !! k) as [v|] eqn:Hin.
  - apply elem_of_list_to_map_2 in Hin.
    by apply (normalize_stores _ _ _ _ _ _ Hnd Hrun Hin Hk).
  - apply not_elem_of_list_to_map_2 in Hin.
    apply eq_None_not_Some. intros [v Hv].
    destruct (normalize_lookup _ _ _ _ Hrun Hv) as (k' & t' & Hin' & Hkt' & Ho).
    pose proof (writer_of_known _ _ _ _ Hk Hkt' Ho) as ->.
    apply Hin, list_elem_of_fmap. by exists (k, v).
Qed.

Lemma X13_copied_field_reads_back_witness :
  ({["name" := JStr "node1"; "arch" := JStr "x86_64"]} : gmap string json) !! "state"
  = (list_to_map [("name", JStr "node1"); ("architecture", JStr "x86_64")]
       : gmap string json) !! "state".
Proof.
  apply X13_copied_field_reads_back.
  - vm_compute. reflexivity.
  - by_evaluation.
  - vm_compute. reflexivity.
Defined.

(** X14: a raw record normalizes to the empty record exactly when all its
    fields are ignored ones; the empty raw record does. Such a node is
    still yielded, as an empty record. *)
Theorem X14_empty_record_iff_all_ignored (src_node : list (string * json)) :
  normalize (JDict src_node) = Return ∅
  ↔ Forall (λ kv, NODE_FIELD_MAP !! kv.1 = Some ignore) src_node.
Proof.
  cbn [normalize items]. split.
  - intros [Hknown Hout]%translate_fields_Return.
    rewrite (right_id_L ∅ (∪)) in Hout.
    assert (writes src_node = []) as Hw.
    { destruct (reverse (writes src_node)) as [|[o v] l] eqn:Hrev.
      - apply (f_equal reverse) in Hrev. by rewrite reverse_involutive in Hrev.
      - cbn [list_to_map foldr] in Hout. symmetry in Hout.
        by apply insert_non_empty in Hout. }
    clear Hout. unfold writes in Hw.
    induction Hknown as [|[k v] kvs [t Hkt] _ IH]; [constructor|].
    simpl in Hkt. cbn [omap list_omap fst snd] in Hw. rewrite Hkt in Hw.
    cbn [mbind option_bind] in Hw.
    destruct t; cbn [target mbind option_bind] in Hw; try done.
    constructor; [done|by apply IH].
  - generalize (∅ : gmap string json).
    induction 1 as [|[k v] kvs Hk _ IH]; [done|].
    simpl in Hk. cbn [translate_fields]. rewrite Hk. cbn [call]. apply IH.
Qed.

(** The node of the docstring of [node_parser]: its record is the one the
    docstring gives, but for the address, which is under [addr]. *)
Example node_parser_docstring_node :
  normalize (JDict
    [ ("architecture", JStr "x86_64");
      ("burstbuffer_network_address", JStr "");
      ("boards", JInt 1);
      ("boot_time", JInt 1679345346);
      ("comment", JStr "");
      ("cores", JInt 20);
      ("cpu_binding", JInt 0);
      ("cpu_load", JInt 2000);
      ("extra", JStr "");
      ("free_memory", JInt 246);
      ("cpus", JInt 40);
      ("last_busy", JInt 1681387881);
      ("features", JStr "x86_64,turing,48gb");
      ("active_features", JStr "x86_64,turing,48gb");
      ("gres", JStr "gpu:rtx8000:8(S:0-1)");
      ("gres_drained", JStr "N/A");
      ("gres_used", JStr "gpu:rtx8000:8(IDX:0-7),tpu:0");
      ("mcs_label", JStr "");
      ("name", JStr "node_name");
      ("next_state_after_reboot", JStr "invalid");
      ("address", JStr "node_addr");
      ("hostname", JStr "node_hostname");
      ("state", JStr "down");
      ("state_flags", JList [JStr "DRAIN"]);
      ("next_state_after_reboot_flags", JList []);
      ("operating_system",
       JStr "Linux 4.15.0-194-generic #205-Ubuntu SMP Fri Sep 16 19:49:27 UTC 2022");
      ("owner", JNull);
      ("partitions", JList [JStr "debug"]);
      ("port", JInt 6812);
      ("real_memory", JInt 1800);
      ("reason", JStr "Sanity Check Failed");
      ("reason_changed_at", JInt 1679695880);
      ("reason_set_by_user", JStr "root");
      ("slurmd_start_time", JInt 1679345380);
      ("sockets", JInt 1);
      ("threads", JInt 1);
      ("temporary_disk", JInt 0);
      ("weight", JInt 1);
      ("tres", JStr "cpu=40,mem=386618M,billing=96,gres/gpu=8");
      ("slurmd_version", JStr "23.02.1-ex");
      ("alloc_memory", JInt 0);
      ("alloc_cpus", JInt 0);
      ("idle_cpus", JInt 2);
      ("tres_used", JStr "cpu=26,mem=249G,gres/gpu=8");
      ("tres_weighted", JInt 0) ])
  = Return (list_to_map
    [ ("arch", JStr "x86_64");
      ("comment", JStr "");
      ("cores", JInt 20);
      ("cpus", JInt 40);
      ("last_busy", JInt 1681387881);
      ("features", JStr "x86_64,turing,48gb");
      ("gres", JStr "gpu:rtx8000:8(S:0-1)");
      ("name", JStr "node_name");
      ("addr", JStr "node_addr");
      ("state", JStr "down");
      ("memory", JInt 1800);
      ("reason", JStr "Sanity Check Failed");
      ("reason_changed_at", JInt 1679695880);
      ("tres", JStr "cpu=40,mem=386618M,billing=96,gres/gpu=8");
      ("tres_used", JStr "cpu=26,mem=249G,gres/gpu=8") ]).
Proof. vm_compute. reflexivity. Qed.
